(** * web3/geth.py: the Geth namespace bindings

    The file binds the node's management namespaces (personal, admin,
    miner, txpool) to Python classes.  Every method body is a single
    forwarding call to a [Method] object imported from [web3._utils.*].

    The development below embeds
    - Python values, exceptions and a store of mutable objects,
    - method bodies as small effect programs ([prog]) that can issue a
      JSON-RPC request through the dispatcher, write to an object, raise
      and catch,
    - Python's positional calling convention with default values,
    - the classes of geth.py, attribute by attribute, in source order. *)

From stdpp Require Import base strings list gmap.
From Stdlib Require Import ZArith Ascii Bool Lia.
#[local] Set Warnings "-register-all".
Import ListNotations.
Local Open Scope string_scope.
Local Open Scope list_scope.

(** ** Python values and the object store *)

Definition loc := nat.

Inductive value : Type :=
| VNone
| VBool (b : bool)
| VInt (z : Z)
| VStr (s : string)
| VList (vs : list value)
| VRef (l : loc).

(** A mutable dict object (TxParams, an EIP-712 message) lives in the store
    and is passed around by reference. *)
Definition object := gmap string value.
Definition store := gmap loc object.

Definition set_item (l : loc) (key : string) (v : value) (st : store) : store :=
  <[l := <[key := v]> (default ∅ (st !! l))]> st.

Record exn := Exn { exc_type : string; exc_args : list value }.

Inductive outcome : Type :=
| Returned (v : value)
| Raised (e : exn).

(** ** Effects of a method body *)

Inductive event : Type :=
| EvCall (method : string) (params : list value)
| EvSetItem (l : loc) (key : string) (v : value).

Inductive prog : Type :=
| Return (v : value)
| Raise (e : exn)
| Request (method : string) (params : list value) (k : value -> prog)
| SetItem (l : loc) (key : string) (v : value) (k : prog)
| Try (body : prog) (handler : exn -> prog).

(** The RPC dispatcher is the external collaborator: given a method name
    and ordered parameters it returns a decoded value or raises, and it may
    touch the store (a mock keeps its script there). *)
Definition dispatcher := string -> list value -> store -> outcome * store.

Fixpoint run (d : dispatcher) (p : prog) (st : store)
  : list event * outcome * store :=
  match p with
  | Return v => ([], Returned v, st)
  | Raise e => ([], Raised e, st)
  | Request m ps k =>
      match d m ps st with
      | (Returned v, st1) =>
          let '(t, o, st2) := run d (k v) st1 in (EvCall m ps :: t, o, st2)
      | (Raised e, st1) => ([EvCall m ps], Raised e, st1)
      end
  | SetItem l key v k =>
      let '(t, o, st2) := run d k (set_item l key v st) in
      (EvSetItem l key v :: t, o, st2)
  | Try body handler =>
      match run d body st with
      | (t, Returned v, st1) => (t, Returned v, st1)
      | (t, Raised e, st1) =>
          let '(t2, o, st2) := run d (handler e) st1 in (t ++ t2, o, st2)
      end
  end.

Definition trace_of (r : list event * outcome * store) : list event := r.1.1.
Definition outcome_of (r : list event * outcome * store) : outcome := r.1.2.
Definition store_of (r : list event * outcome * store) : store := r.2.

Definition is_call (e : event) : bool :=
  match e with EvCall _ _ => true | EvSetItem _ _ _ => false end.

(** [await c] runs the coroutine [c] to completion at the point of the
    await; the model is sequential, so this is [c] itself. *)
Definition await (coroutine : prog) : prog := coroutine.

(** ** Calling convention *)

Definition callable := list value -> prog.

(** A Python function of [n] positional parameters (self left out). *)
Fixpoint pyfun (n : nat) : Type :=
  match n with
  | O => prog
  | S k => value -> pyfun k
  end.

Fixpoint apply_positional {n : nat} : pyfun n -> list value -> option prog :=
  match n with
  | O => fun f args => match args with [] => Some f | _ :: _ => None end
  | S k => fun f args =>
      match args with
      | [] => None
      | a :: rest => apply_positional (f a) rest
      end
  end.

(** Binding of positional arguments to [n] parameters of which the last
    [length defaults] have a default value: too few or too many arguments
    are rejected, omitted trailing parameters take their defaults. *)
Definition bind_args (n : nat) (defaults args : list value)
  : option (list value) :=
  let required := n - length defaults in
  let given := length args in
  if ((given <? required) || (n <? given))%nat then None
  else Some (args ++ drop (given - required) defaults).

(** What Python raises when the arguments do not fit the signature. *)
Definition arity_error : exn := Exn "TypeError" [].

Inductive member : Type :=
| Def (is_coroutine : bool) (params : list string) (defaults : list value)
      (body : pyfun (length params))
| Attr (m : callable).

Definition accepts (m : member) (args : list value) : bool :=
  match m with
  | Def _ ps ds _ =>
      match bind_args (length ps) ds args with
      | Some _ => true
      | None => false
      end
  | Attr _ => true
  end.

(** The parameters the body sees for the arguments [args]. *)
Definition bound_params (m : member) (args : list value) : list value :=
  match m with
  | Def _ ps ds _ => default args (bind_args (length ps) ds args)
  | Attr _ => args
  end.

(** Calling a member; a coroutine function is called and awaited. *)
Definition call_member (m : member) (args : list value) : prog :=
  match m with
  | Def co ps ds body =>
      match bind_args (length ps) ds args with
      | Some bound =>
          match apply_positional body bound with
          | Some p => if co then await p else p
          | None => Raise arity_error
          end
      | None => Raise arity_error
      end
  | Attr c => c args
  end.

Definition is_coroutine_function (m : member) : bool :=
  match m with Def co _ _ _ => co | Attr _ => false end.

(** How many trailing parameters the arguments [args] leave to their
    defaults. *)
Definition omitted (m : member) (args : list value) : nat :=
  match m with
  | Def _ ps _ _ => length ps - length args
  | Attr _ => 0
  end.

(** Number of parameters and of defaults; [None] for a bound Method
    object, which takes its arguments as they come. *)
Definition signature (m : member) : option (nat * nat) :=
  match m with
  | Def _ ps ds _ => Some (length ps, length ds)
  | Attr _ => None
  end.

(** ** Classes *)

Inductive class : Type :=
| Class (name : string) (base : option class) (doc : option string)
        (is_async_decl : option bool)
        (annotations : list (string * string))
        (body : list (string * member)).

Definition cname (C : class) : string :=
  let 'Class n _ _ _ _ _ := C in n.
Definition cbase (C : class) : option class :=
  let 'Class _ b _ _ _ _ := C in b.
Definition cdoc (C : class) : option string :=
  let 'Class _ _ d _ _ _ := C in d.
Definition annotations (C : class) : list (string * string) :=
  let 'Class _ _ _ _ a _ := C in a.
Definition cbody (C : class) : list (string * member) :=
  let 'Class _ _ _ _ _ b := C in b.

(** A class body is executed top to bottom: a later binding of a name
    replaces an earlier one. *)
Fixpoint body_lookup (n : string) (body : list (string * member))
  : option member :=
  match body with
  | [] => None
  | (k, m) :: rest =>
      match body_lookup n rest with
      | Some m' => Some m'
      | None => if String.eqb k n then Some m else None
      end
  end.

(** Attribute lookup along the (single-inheritance) MRO. *)
Fixpoint getattr (C : class) (n : string) : option member :=
  let 'Class _ base _ _ _ body := C in
  match body_lookup n body with
  | Some m => Some m
  | None => match base with Some B => getattr B n | None => None end
  end.

Fixpoint is_async (C : class) : bool :=
  let 'Class _ base _ decl _ _ := C in
  match decl with
  | Some b => b
  | None => match base with Some B => is_async B | None => false end
  end.

(** Names starting with an underscore are private by convention. *)
Definition is_public (n : string) : bool :=
  match n with
  | String c _ => negb (Ascii.eqb c "_")
  | EmptyString => false
  end.

(** The operations a class exposes: the public attributes it defines or
    inherits. *)
Fixpoint all_attrs (C : class) : list (string * member) :=
  let 'Class _ base _ _ _ body := C in
  body ++ match base with Some B => all_attrs B | None => [] end.

Definition exposed (C : class) : list (string * member) :=
  filter (fun nm => is_public nm.1 = true) (all_attrs C).

Definition op_names (C : class) : list string := (exposed C).*1.

(** Calling the attribute [n] of an instance of [C] on positional
    arguments; an unknown attribute raises AttributeError. *)
Definition invoke (C : class) (n : string) (args : list value) : prog :=
  match getattr C n with
  | Some m => call_member m args
  | None => Raise (Exn "AttributeError" [VStr n])
  end.

(** The namespace a class binds is the fragment of the management-API
    link in its docstring, or in the docstring of the class it extends. *)
Fixpoint after_hash (s : string) : option string :=
  match s with
  | EmptyString => None
  | String c r =>
      match after_hash r with
      | Some t => Some t
      | None => if Ascii.eqb c "#" then Some r else None
      end
  end.

Fixpoint namespace_of (C : class) : option string :=
  let 'Class _ base doc _ _ _ := C in
  match doc ≫= after_hash with
  | Some ns => Some ns
  | None => match base with Some B => namespace_of B | None => None end
  end.

(** ** Naming conventions *)

Definition lower (c : ascii) : ascii :=
  let n := nat_of_ascii c in
  if ((65 <=? n) && (n <=? 90))%nat then ascii_of_nat (n + 32) else c.

Definition is_upper (c : ascii) : bool :=
  let n := nat_of_ascii c in ((65 <=? n) && (n <=? 90))%nat.

Fixpoint has_upper (s : string) : bool :=
  match s with
  | EmptyString => false
  | String c r => is_upper c || has_upper r
  end.

Fixpoint has_underscore (s : string) : bool :=
  match s with
  | EmptyString => false
  | String c r => Ascii.eqb c "_" || has_underscore r
  end.

(** Two spellings name the same operation when they agree after the
    underscores are dropped and the letters lowered:
    [start_rpc] and [startRPC], [ec_recover] and [ecRecover]. *)
Fixpoint norm (s : string) : string :=
  match s with
  | EmptyString => EmptyString
  | String c r => if Ascii.eqb c "_" then norm r else String (lower c) (norm r)
  end.

Definition is_snake_case (s : string) : bool := negb (has_upper s).
Definition is_camel_case (s : string) : bool := negb (has_underscore s).

(** [a] is the camelCase spelling of the snake_case name [o]. *)
Definition camel_of (a o : string) : bool :=
  is_camel_case a && is_snake_case o && String.eqb (norm a) (norm o).

(** A deprecated alias paired with its canonical operation: two different
    spellings of one operation. *)
Definition alias_pair (a o : string) : bool :=
  camel_of a o && negb (String.eqb a o).

(** ** The imported collaborators *)

(** Modelled from the spec: web3/method.py (class Method) is not among the
    sources.  The spec's consumed interface is
    [call(method_name, params) -> decoded result], and every operation
    passes its inputs "unmodified as ordered parameters to the call
    dispatcher": a Method called with [args] requests its JSON-RPC method
    with [args] and returns what the dispatcher decodes. *)
Definition Method (json_rpc_method : string) : callable :=
  fun args => Request json_rpc_method args Return.

(** Modelled from the spec: web3/_utils/personal.py is not among the
    sources.  Section 6 of the spec maps ecRecover, importRawKey,
    listAccounts, listWallets, lockAccount, newAccount, sendTransaction,
    sign, signTypedData, unlockAccount to [personal_*]; section 4.5 binds
    each deprecated camelCase name "to the identical underlying
    implementation". *)
Module personal.
Definition ec_recover := Method "personal_ecRecover".
Definition import_raw_key := Method "personal_importRawKey".
Definition list_accounts := Method "personal_listAccounts".
Definition list_wallets := Method "personal_listWallets".
Definition lock_account := Method "personal_lockAccount".
Definition new_account := Method "personal_newAccount".
Definition send_transaction := Method "personal_sendTransaction".
Definition sign := Method "personal_sign".
Definition sign_typed_data := Method "personal_signTypedData".
Definition unlock_account := Method "personal_unlockAccount".
Definition ecRecover := ec_recover.
Definition importRawKey := import_raw_key.
Definition listAccounts := list_accounts.
Definition lockAccount := lock_account.
Definition newAccount := new_account.
Definition sendTransaction := send_transaction.
Definition signTypedData := sign_typed_data.
Definition unlockAccount := unlock_account.
End personal.

(** Modelled from the spec: web3/_utils/admin.py is not among the sources.
    Section 6: addPeer, nodeInfo, peers, datadir, startRPC, startWS,
    stopRPC, stopWS map to [admin_*]; section 4.2: "pure pass-through". *)
Module admin.
Definition add_peer := Method "admin_addPeer".
Definition datadir := Method "admin_datadir".
Definition node_info := Method "admin_nodeInfo".
Definition peers := Method "admin_peers".
Definition start_rpc := Method "admin_startRPC".
Definition start_ws := Method "admin_startWS".
Definition stop_rpc := Method "admin_stopRPC".
Definition stop_ws := Method "admin_stopWS".
Definition addPeer := add_peer.
Definition nodeInfo := node_info.
Definition startRPC := start_rpc.
Definition startWS := start_ws.
Definition stopRPC := stop_rpc.
Definition stopWS := stop_ws.
End admin.

(** Modelled from the spec: web3/_utils/miner.py is not among the sources.
    Section 6: makeDag, setExtra, setEtherbase, setGasPrice, start, stop,
    startAutoDag, stopAutoDag map to [miner_*]; section 4.3: "pure
    pass-through". *)
Module miner.
Definition make_dag := Method "miner_makeDag".
Definition set_etherbase := Method "miner_setEtherbase".
Definition set_extra := Method "miner_setExtra".
Definition set_gas_price := Method "miner_setGasPrice".
Definition start := Method "miner_start".
Definition start_auto_dag := Method "miner_startAutoDag".
Definition stop := Method "miner_stop".
Definition stop_auto_dag := Method "miner_stopAutoDag".
Definition makeDag := make_dag.
Definition setEtherbase := set_etherbase.
Definition setExtra := set_extra.
Definition setGasPrice := set_gas_price.
Definition startAutoDag := start_auto_dag.
Definition stopAutoDag := stop_auto_dag.
End miner.

(** Modelled from the spec: web3/_utils/txpool.py is not among the sources.
    Section 6: content, inspect, status map to [txpool_*]. *)
Module txpool.
Definition content := Method "txpool_content".
Definition inspect := Method "txpool_inspect".
Definition status := Method "txpool_status".
End txpool.

(** Modelled from the spec: web3/module.py (class Module) is not among the
    sources.  Section 5: the blocking mode is the one in which "each
    operation synchronously suspends the calling thread"; a namespace
    class that does not set [is_async] (Admin, Miner: "synchronous only")
    is in that mode, so the base class declares [is_async = False].  It
    contributes no operation. *)
Definition Module_ : class :=
  Class "Module" None None (Some false) [] [].

(** ** geth.py *)

Module BaseGethPersonal.
Definition _ec_recover := personal.ec_recover.
Definition _import_raw_key := personal.import_raw_key.
Definition _list_accounts := personal.list_accounts.
Definition _list_wallets := personal.list_wallets.
Definition _lock_account := personal.lock_account.
Definition _new_account := personal.new_account.
Definition _send_transaction := personal.send_transaction.
Definition _sign := personal.sign.
Definition _sign_typed_data := personal.sign_typed_data.
Definition _unlock_account := personal.unlock_account.
(* deprecated *)
Definition _ecRecover := personal.ecRecover.
Definition _importRawKey := personal.importRawKey.
Definition _listAccounts := personal.listAccounts.
Definition _lockAccount := personal.lockAccount.
Definition _newAccount := personal.newAccount.
Definition _sendTransaction := personal.sendTransaction.
Definition _signTypedData := personal.signTypedData.
Definition _unlockAccount := personal.unlockAccount.

Definition cls : class :=
  Class "BaseGethPersonal" (Some Module_)
    (Some "https://github.com/ethereum/go-ethereum/wiki/management-apis#personal")
    None []
    [ ("_ec_recover", Attr _ec_recover);
      ("_import_raw_key", Attr _import_raw_key);
      ("_list_accounts", Attr _list_accounts);
      ("_list_wallets", Attr _list_wallets);
      ("_lock_account", Attr _lock_account);
      ("_new_account", Attr _new_account);
      ("_send_transaction", Attr _send_transaction);
      ("_sign", Attr _sign);
      ("_sign_typed_data", Attr _sign_typed_data);
      ("_unlock_account", Attr _unlock_account);
      ("_ecRecover", Attr _ecRecover);
      ("_importRawKey", Attr _importRawKey);
      ("_listAccounts", Attr _listAccounts);
      ("_lockAccount", Attr _lockAccount);
      ("_newAccount", Attr _newAccount);
      ("_sendTransaction", Attr _sendTransaction);
      ("_signTypedData", Attr _signTypedData);
      ("_unlockAccount", Attr _unlockAccount) ].
End BaseGethPersonal.

Module GethPersonal.
Import BaseGethPersonal.

Definition ec_recover : pyfun 2 := fun message signature =>
  _ec_recover [message; signature].
Definition import_raw_key : pyfun 2 := fun private_key passphrase =>
  _import_raw_key [private_key; passphrase].
Definition list_accounts : pyfun 0 := _list_accounts [].
Definition list_wallets : pyfun 0 := _list_wallets [].
Definition lock_account : pyfun 1 := fun account =>
  _lock_account [account].
Definition new_account : pyfun 1 := fun passphrase =>
  _new_account [passphrase].
Definition send_transaction : pyfun 2 := fun transaction passphrase =>
  _send_transaction [transaction; passphrase].
Definition sign : pyfun 3 := fun message account password =>
  _sign [message; account; password].
Definition sign_typed_data : pyfun 3 := fun message account password =>
  _sign_typed_data [message; account; password].
Definition unlock_account : pyfun 3 := fun account passphrase duration =>
  _unlock_account [account; passphrase; duration].
Definition ecRecover : pyfun 2 := fun message signature =>
  _ecRecover [message; signature].
Definition importRawKey : pyfun 2 := fun private_key passphrase =>
  _importRawKey [private_key; passphrase].
Definition listAccounts : pyfun 0 := _listAccounts [].
Definition lockAccount : pyfun 1 := fun account =>
  _lockAccount [account].
Definition newAccount : pyfun 1 := fun passphrase =>
  _newAccount [passphrase].
Definition sendTransaction : pyfun 2 := fun transaction passphrase =>
  _sendTransaction [transaction; passphrase].
Definition signTypedData : pyfun 3 := fun message account password =>
  _signTypedData [message; account; password].
Definition unlockAccount : pyfun 3 := fun account passphrase duration =>
  _unlockAccount [account; passphrase; duration].

Definition cls : class :=
  Class "GethPersonal" (Some BaseGethPersonal.cls) None (Some false) []
    [ ("ec_recover", Def false ["message"; "signature"] [] ec_recover);
      ("import_raw_key",
        Def false ["private_key"; "passphrase"] [] import_raw_key);
      ("list_accounts", Def false [] [] list_accounts);
      ("list_wallets", Def false [] [] list_wallets);
      ("lock_account", Def false ["account"] [] lock_account);
      ("new_account", Def false ["passphrase"] [] new_account);
      ("send_transaction",
        Def false ["transaction"; "passphrase"] [] send_transaction);
      ("sign", Def false ["message"; "account"; "password"] [] sign);
      ("sign_typed_data",
        Def false ["message"; "account"; "password"] [] sign_typed_data);
      ("unlock_account",
        Def false ["account"; "passphrase"; "duration"] [VNone]
          unlock_account);
      ("ecRecover", Def false ["message"; "signature"] [] ecRecover);
      ("importRawKey",
        Def false ["private_key"; "passphrase"] [] importRawKey);
      ("listAccounts", Def false [] [] listAccounts);
      ("lockAccount", Def false ["account"] [] lockAccount);
      ("newAccount", Def false ["passphrase"] [] newAccount);
      ("sendTransaction",
        Def false ["transaction"; "passphrase"] [] sendTransaction);
      ("signTypedData",
        Def false ["message"; "account"; "password"] [VNone] signTypedData);
      ("unlockAccount",
        Def false ["account"; "passphrase"; "duration"] [VNone]
          unlockAccount) ].
End GethPersonal.

Module AsyncGethPersonal.
Import BaseGethPersonal.

Definition ec_recover : pyfun 2 := fun message signature =>
  await (_ec_recover [message; signature]).
Definition import_raw_key : pyfun 2 := fun private_key passphrase =>
  await (_import_raw_key [private_key; passphrase]).
Definition list_accounts : pyfun 0 := await (_list_accounts []).
Definition list_wallets : pyfun 0 := await (_list_wallets []).
Definition lock_account : pyfun 1 := fun account =>
  await (_lock_account [account]).
Definition new_account : pyfun 1 := fun passphrase =>
  await (_new_account [passphrase]).
Definition send_transaction : pyfun 2 := fun transaction passphrase =>
  await (_send_transaction [transaction; passphrase]).
Definition sign : pyfun 3 := fun message account password =>
  await (_sign [message; account; password]).
Definition sign_typed_data : pyfun 3 := fun message account password =>
  await (_sign_typed_data [message; account; password]).
Definition unlock_account : pyfun 3 := fun account passphrase duration =>
  await (_unlock_account [account; passphrase; duration]).

Definition cls : class :=
  Class "AsyncGethPersonal" (Some BaseGethPersonal.cls) None (Some true) []
    [ ("ec_recover", Def true ["message"; "signature"] [] ec_recover);
      ("import_raw_key",
        Def true ["private_key"; "passphrase"] [] import_raw_key);
      ("list_accounts", Def true [] [] list_accounts);
      ("list_wallets", Def true [] [] list_wallets);
      ("lock_account", Def true ["account"] [] lock_account);
      ("new_account", Def true ["passphrase"] [] new_account);
      ("send_transaction",
        Def true ["transaction"; "passphrase"] [] send_transaction);
      ("sign", Def true ["message"; "account"; "password"] [] sign);
      ("sign_typed_data",
        Def true ["message"; "account"; "password"] [] sign_typed_data);
      ("unlock_account",
        Def true ["account"; "passphrase"; "duration"] [VNone]
          unlock_account) ].
End AsyncGethPersonal.

Module BaseTxPool.
Definition _content := txpool.content.
Definition _inspect := txpool.inspect.
Definition _status := txpool.status.

Definition cls : class :=
  Class "BaseTxPool" (Some Module_)
    (Some "https://github.com/ethereum/go-ethereum/wiki/Management-APIs#txpool")
    None []
    [ ("_content", Attr _content);
      ("_inspect", Attr _inspect);
      ("_status", Attr _status) ].
End BaseTxPool.

Module GethTxPool.
Import BaseTxPool.

Definition content : pyfun 0 := _content [].
Definition inspect : pyfun 0 := _inspect [].
Definition status : pyfun 0 := _status [].

Definition cls : class :=
  Class "GethTxPool" (Some BaseTxPool.cls) None (Some false) []
    [ ("content", Def false [] [] content);
      ("inspect", Def false [] [] inspect);
      ("status", Def false [] [] status) ].
End GethTxPool.

Module AsyncGethTxPool.
Import BaseTxPool.

Definition content : pyfun 0 := await (_content []).
Definition inspect : pyfun 0 := await (_inspect []).
Definition status : pyfun 0 := await (_status []).

Definition cls : class :=
  Class "AsyncGethTxPool" (Some BaseTxPool.cls) None (Some true) []
    [ ("content", Def true [] [] content);
      ("inspect", Def true [] [] inspect);
      ("status", Def true [] [] status) ].
End AsyncGethTxPool.

Module GethAdmin.
Definition cls : class :=
  Class "GethAdmin" (Some Module_)
    (Some "https://github.com/ethereum/go-ethereum/wiki/Management-APIs#admin")
    None []
    [ ("add_peer", Attr admin.add_peer);
      ("node_info", Attr admin.node_info);
      ("start_rpc", Attr admin.start_rpc);
      ("start_ws", Attr admin.start_ws);
      ("stop_ws", Attr admin.stop_ws);
      ("stop_rpc", Attr admin.stop_rpc);
      (* deprecated *)
      ("addPeer", Attr admin.addPeer);
      ("datadir", Attr admin.datadir);
      ("nodeInfo", Attr admin.nodeInfo);
      ("peers", Attr admin.peers);
      ("startRPC", Attr admin.startRPC);
      ("startWS", Attr admin.startWS);
      ("stopRPC", Attr admin.stopRPC);
      ("stopWS", Attr admin.stopWS) ].
End GethAdmin.

Module GethMiner.
Definition cls : class :=
  Class "GethMiner" (Some Module_)
    (Some "https://github.com/ethereum/go-ethereum/wiki/Management-APIs#miner")
    None []
    [ ("make_dag", Attr miner.make_dag);
      ("set_extra", Attr miner.set_extra);
      ("set_etherbase", Attr miner.set_etherbase);
      ("set_gas_price", Attr miner.set_gas_price);
      ("start", Attr miner.start);
      ("stop", Attr miner.stop);
      ("start_auto_dag", Attr miner.start_auto_dag);
      ("stop_auto_dag", Attr miner.stop_auto_dag);
      (* deprecated *)
      ("makeDag", Attr miner.makeDag);
      ("setExtra", Attr miner.setExtra);
      ("setEtherbase", Attr miner.setEtherbase);
      ("setGasPrice", Attr miner.setGasPrice);
      ("startAutoDag", Attr miner.startAutoDag);
      ("stopAutoDag", Attr miner.stopAutoDag) ].
End GethMiner.

Module Geth.
Definition cls : class :=
  Class "Geth" (Some Module_) None None
    [ ("personal", "GethPersonal"); ("admin", "GethAdmin") ]
    [].
End Geth.

(** Every class geth.py defines, in source order. *)
Definition geth_classes : list class :=
  [ BaseGethPersonal.cls; GethPersonal.cls; AsyncGethPersonal.cls;
    BaseTxPool.cls; GethTxPool.cls; AsyncGethTxPool.cls;
    GethAdmin.cls; GethMiner.cls; Geth.cls ].

(** The namespace classes a caller works with. *)
Definition namespace_classes : list class :=
  [ GethPersonal.cls; AsyncGethPersonal.cls; GethAdmin.cls; GethMiner.cls;
    GethTxPool.cls; AsyncGethTxPool.cls ].

(** ** The documented interface *)

(** Section 6 of the specification: the operations of each namespace, in
    the spelling of their JSON-RPC method, and the prefix they map to. *)
Definition exposed_interface : list (string * list string) :=
  [ ("personal",
      [ "ecRecover"; "importRawKey"; "listAccounts"; "listWallets";
        "lockAccount"; "newAccount"; "sendTransaction"; "sign";
        "signTypedData"; "unlockAccount" ]);
    ("admin",
      [ "addPeer"; "nodeInfo"; "peers"; "datadir"; "startRPC"; "startWS";
        "stopRPC"; "stopWS" ]);
    ("miner",
      [ "makeDag"; "setExtra"; "setEtherbase"; "setGasPrice"; "start";
        "stop"; "startAutoDag"; "stopAutoDag" ]);
    ("txpool", [ "content"; "inspect"; "status" ]) ].

Fixpoint find_spelling (op : string) (names : list string) : option string :=
  match names with
  | [] => None
  | c :: rest =>
      if String.eqb (norm c) (norm op) then Some c else find_spelling op rest
  end.

Fixpoint documented_in (table : list (string * list string))
    (ns op : string) : option string :=
  match table with
  | [] => None
  | (k, names) :: rest =>
      if String.eqb k ns
      then (fun c => String.append k (String.append "_" c))
             <$> find_spelling op names
      else documented_in rest ns op
  end.

(** The documented JSON-RPC method string of operation [op] of class [C]. *)
Definition documented (C : class) (op : string) : option string :=
  namespace_of C ≫= fun ns => documented_in exposed_interface ns op.

(** A mock dispatcher that answers every request with [v]. *)
Definition answering (v : value) : dispatcher :=
  fun _ _ st => (Returned v, st).

(** A mock dispatcher that raises [e] for [method] and answers [VNone]
    otherwise. *)
Definition raising_for (method : string) (e : exn) : dispatcher :=
  fun m _ st => if String.eqb m method then (Raised e, st)
                else (Returned VNone, st).

(** ** Vocabulary of the statements *)

(** [m] does nothing but forward its bound parameters to the JSON-RPC
    method [rpc]. *)
Definition forwards_to (m : member) (rpc : string) : Prop :=
  match m with
  | Def _ ps ds body =>
      length ds <= length ps /\
      forall bound, length bound = length ps ->
        apply_positional body bound = Some (Request rpc bound Return)
  | Attr c => forall args, c args = Request rpc args Return
  end.

(** Every default value of [m] is [None]. *)
Definition none_defaults (m : member) : Prop :=
  match m with
  | Def _ _ ds _ => ds = replicate (length ds) VNone
  | Attr _ => True
  end.

Definition wired (C : class) (nm : string * member) : Prop :=
  exists rpc,
    documented C nm.1 = Some rpc /\ forwards_to nm.2 rpc /\
    none_defaults nm.2.

(** The signatures of an alias and of its canonical operation agree, but
    for [signTypedData]. *)
Definition aliases_agree (C : class) : bool :=
  forallb (fun a : string * member =>
    forallb (fun o : string * member =>
      implb (alias_pair a.1 o.1)
        (bool_decide (signature a.2 = signature o.2)
         || String.eqb a.1 "signTypedData"))
      (exposed C))
    (exposed C).

(** Every snake_case operation of [C] other than [list_wallets] has its
    camelCase spelling among the operations of [C]. *)
Definition camel_complete (C : class) : bool :=
  forallb (fun o =>
    implb (is_snake_case o && negb (String.eqb o "list_wallets"))
      (existsb (fun a => camel_of a o) (op_names C)))
    (op_names C).

Definition sync_async_pairs : list (class * class) :=
  [ (GethPersonal.cls, AsyncGethPersonal.cls);
    (GethTxPool.cls, AsyncGethTxPool.cls) ].

(** An operation has the same signature in both classes of a pair. *)
Definition same_signatures (SA : class * class) : bool :=
  forallb (fun s : string * member =>
    forallb (fun a : string * member =>
      implb (String.eqb s.1 a.1)
        (bool_decide (signature s.2 = signature a.2)))
      (exposed SA.2))
    (exposed SA.1).

Definition async_classes : list class :=
  List.filter is_async geth_classes.

Definition binds_namespace (ns : string) (C : class) : bool :=
  match namespace_of C with
  | Some ns' => String.eqb ns ns'
  | None => false
  end.

(** ** Vocabulary of the structural properties *)

Definition params_of (m : member) : list string :=
  match m with Def _ ps _ _ => ps | Attr _ => [] end.

Definition defaults_of (m : member) : list value :=
  match m with Def _ _ ds _ => ds | Attr _ => [] end.

(** The private attribute a wrapper of name [n] delegates to. *)
Definition private_name (n : string) : string := String "_" n.

(** The classes whose operations are written as [def] wrappers. *)
Definition wrapper_classes : list class :=
  [ GethPersonal.cls; AsyncGethPersonal.cls; GethTxPool.cls;
    AsyncGethTxPool.cls ].

(** The operations that declare a default value. *)
Definition optional_parameter_ops : list string :=
  [ "unlock_account"; "unlockAccount"; "signTypedData" ].

Definition defaults_census (C : class) : bool :=
  forallb (fun nm : string * member =>
    match signature nm.2 with
    | None => true
    | Some (np, nd) =>
        (nd =? 0)%nat
        || ((nd =? 1)%nat && (np =? 3)%nat
            && existsb (String.eqb nm.1) optional_parameter_ops)
    end)
    (exposed C).

Definition coroutine_consistent (C : class) : bool :=
  forallb (fun nm : string * member =>
    match signature nm.2 with
    | None => true
    | Some _ => Bool.eqb (is_coroutine_function nm.2) (is_async C)
    end)
    (cbody C).

Definition pairing_one_to_one (C : class) : bool :=
  forallb (fun x =>
    forallb (fun y =>
      forallb (fun z =>
        implb (alias_pair x y && alias_pair x z) (String.eqb y z)
        && implb (alias_pair y x && alias_pair z x) (String.eqb y z))
        (op_names C))
      (op_names C))
    (op_names C).

Definition aliases_have_canonical (C : class) : bool :=
  forallb (fun a =>
    implb (has_upper a) (existsb (fun o => alias_pair a o) (op_names C)))
    (op_names C).

Definition alias_params_agree (C : class) : bool :=
  forallb (fun a : string * member =>
    forallb (fun o : string * member =>
      implb (alias_pair a.1 o.1)
        (bool_decide (params_of a.2 = params_of o.2)))
      (exposed C))
    (exposed C).

Definition same_params (SA : class * class) : bool :=
  forallb (fun s : string * member =>
    forallb (fun a : string * member =>
      implb (String.eqb s.1 a.1)
        (bool_decide (params_of s.2 = params_of a.2)))
      (exposed SA.2))
    (exposed SA.1).

Definition find_class (cn : string) (classes : list class) : option class :=
  List.find (fun C => String.eqb (cname C) cn) classes.

(** * Properties *)

(** ** The calling convention *)

Lemma bind_args_length n ds args bound :
  length ds <= n ->
  bind_args n ds args = Some bound ->
  length bound = n.
Proof.
  unfold bind_args. intros Hds.
  destruct (_ || _)%nat eqn:Hguard; [discriminate|].
  apply orb_false_iff in Hguard as [Hlow Hhigh].
  apply Nat.ltb_ge in Hlow, Hhigh.
  intros [= <-]. rewrite length_app, length_drop. lia.
Qed.

Lemma bind_args_prefix n ds args bound :
  bind_args n ds args = Some bound -> exists filled, bound = args ++ filled.
Proof.
  unfold bind_args. destruct (_ || _)%nat; [discriminate|].
  intros [= <-]. eauto.
Qed.

Lemma bind_args_full n ds args :
  length args = n -> length ds <= n -> bind_args n ds args = Some args.
Proof.
  intros Hn Hds. unfold bind_args. rewrite Hn.
  replace (n <? n - length ds)%nat with false
    by (symmetry; apply Nat.ltb_ge; lia).
  rewrite Nat.ltb_irrefl. simpl.
  rewrite drop_ge by lia. by rewrite app_nil_r.
Qed.

Lemma run_request d rpc ps st :
  run d (Request rpc ps Return) st
  = ([EvCall rpc ps], (d rpc ps st).1, (d rpc ps st).2).
Proof. simpl. by destruct (d rpc ps st) as [[v|e] st1]. Qed.

(** ** Attribute lookup *)

Lemma body_lookup_In n body m :
  body_lookup n body = Some m -> In (n, m) body.
Proof.
  induction body as [|[k m'] rest IH]; simpl; [discriminate|].
  destruct (body_lookup n rest) as [m''|].
  - intros [= ->]. right. by apply IH.
  - destruct (String.eqb k n) eqn:Hk; [|discriminate].
    apply String.eqb_eq in Hk as ->. intros [= ->]. by left.
Qed.

Lemma getattr_In :
  forall C n m, getattr C n = Some m -> In (n, m) (all_attrs C).
Proof.
  fix IH 1. intros [name base doc decl ann body] n m. simpl.
  destruct (body_lookup n body) as [m'|] eqn:Hb.
  - intros [= ->]. apply in_or_app. left. by apply body_lookup_In.
  - destruct base as [B|]; [|discriminate].
    intros HB. apply in_or_app. right. by apply IH.
Qed.

Lemma getattr_exposed C n m :
  getattr C n = Some m -> is_public n = true -> In (n, m) (exposed C).
Proof.
  intros Hget Hpub. apply list_elem_of_In, list_elem_of_filter.
  split; [done|]. by apply list_elem_of_In, getattr_In.
Qed.

(** ** Wiring of the namespace classes *)

Ltac by_arity :=
  let bound := fresh "bound" in
  intros bound;
  repeat (destruct bound as [|? bound]; simpl; try discriminate);
  try reflexivity.

Ltac compute_exposed :=
  match goal with
  | |- Forall _ ?l => let l' := eval vm_compute in l in change l with l'
  end.

Ltac solve_wired :=
  eexists; split; [vm_compute; reflexivity|];
  split; [|simpl; first [reflexivity | exact I]];
  simpl; first [split; [simpl; lia | by_arity] | reflexivity].

Lemma GethPersonal_wired : Forall (wired GethPersonal.cls) (exposed GethPersonal.cls).
Proof. compute_exposed. repeat (constructor; [solve_wired|]). constructor. Qed.

Lemma AsyncGethPersonal_wired :
  Forall (wired AsyncGethPersonal.cls) (exposed AsyncGethPersonal.cls).
Proof. compute_exposed. repeat (constructor; [solve_wired|]). constructor. Qed.

Lemma GethAdmin_wired : Forall (wired GethAdmin.cls) (exposed GethAdmin.cls).
Proof. compute_exposed. repeat (constructor; [solve_wired|]). constructor. Qed.

Lemma GethMiner_wired : Forall (wired GethMiner.cls) (exposed GethMiner.cls).
Proof. compute_exposed. repeat (constructor; [solve_wired|]). constructor. Qed.

Lemma GethTxPool_wired : Forall (wired GethTxPool.cls) (exposed GethTxPool.cls).
Proof. compute_exposed. repeat (constructor; [solve_wired|]). constructor. Qed.

Lemma AsyncGethTxPool_wired :
  Forall (wired AsyncGethTxPool.cls) (exposed AsyncGethTxPool.cls).
Proof. compute_exposed. repeat (constructor; [solve_wired|]). constructor. Qed.

Lemma namespace_classes_wired :
  Forall (fun C => Forall (wired C) (exposed C)) namespace_classes.
Proof.
  unfold namespace_classes.
  apply Forall_cons_2; [apply GethPersonal_wired|].
  apply Forall_cons_2; [apply AsyncGethPersonal_wired|].
  apply Forall_cons_2; [apply GethAdmin_wired|].
  apply Forall_cons_2; [apply GethMiner_wired|].
  apply Forall_cons_2; [apply GethTxPool_wired|].
  apply Forall_cons_2; [apply AsyncGethTxPool_wired|].
  apply Forall_nil_2.
Qed.

Lemma exposed_wired C n m :
  In C namespace_classes ->
  getattr C n = Some m -> is_public n = true ->
  exists rpc,
    documented C n = Some rpc /\ forwards_to m rpc /\ none_defaults m.
Proof.
  intros HC Hget Hpub.
  pose proof namespace_classes_wired as HW.
  rewrite Forall_forall in HW. apply list_elem_of_In in HC.
  specialize (HW C HC). rewrite Forall_forall in HW.
  apply (HW (n, m)), list_elem_of_In. by apply getattr_exposed.
Qed.

(** What a forwarding member does on any argument list. *)
Lemma call_forwards m rpc args :
  forwards_to m rpc ->
  call_member m args
  = if accepts m args then Request rpc (bound_params m args) Return
    else Raise arity_error.
Proof.
  destruct m as [co ps ds body|c]; simpl.
  - intros [Hds Hbody].
    destruct (bind_args (length ps) ds args) as [bound|] eqn:Hbind; [|done].
    simpl. rewrite Hbody by (by eapply bind_args_length).
    by destruct co.
  - intros ->. done.
Qed.

Lemma run_forwards m rpc args d st :
  forwards_to m rpc ->
  run d (call_member m args) st
  = if accepts m args
    then ([EvCall rpc (bound_params m args)],
          (d rpc (bound_params m args) st).1,
          (d rpc (bound_params m args) st).2)
    else ([], Raised arity_error, st).
Proof.
  intros Hm. rewrite (call_forwards m rpc args Hm).
  destruct (accepts m args); [apply run_request|done].
Qed.

Lemma bind_args_none n k args bound :
  k <= n ->
  bind_args n (replicate k VNone) args = Some bound ->
  bound = args ++ replicate (n - length args) VNone.
Proof.
  unfold bind_args. rewrite length_replicate. intros Hk.
  destruct (_ || _)%nat eqn:Hguard; [discriminate|].
  apply orb_false_iff in Hguard as [Hlow Hhigh].
  apply Nat.ltb_ge in Hlow, Hhigh.
  intros [= <-]. rewrite drop_replicate. do 2 f_equal. lia.
Qed.

Lemma bound_params_omitted m rpc args :
  forwards_to m rpc -> none_defaults m -> accepts m args = true ->
  bound_params m args = args ++ replicate (omitted m args) VNone.
Proof.
  destruct m as [co ps ds body|c]; simpl.
  - intros [Hds _] Hnone.
    destruct (bind_args (length ps) ds args) as [bound|] eqn:Hbind;
      [|discriminate].
    intros _. simpl. rewrite Hnone in Hbind.
    by apply bind_args_none in Hbind.
  - intros _ _ _. by rewrite app_nil_r.
Qed.

Lemma invoke_getattr C n m args :
  getattr C n = Some m -> invoke C n args = call_member m args.
Proof. unfold invoke. by intros ->. Qed.

(** The one characterisation everything below rests on: an exposed
    operation either rejects its arguments when they are bound, or issues
    the single request of its documented method and hands back what the
    dispatcher answers. *)
Lemma exposed_run C n m :
  In C namespace_classes ->
  getattr C n = Some m -> is_public n = true ->
  exists rpc, documented C n = Some rpc /\
    forall args d st,
      run d (call_member m args) st
      = if accepts m args
        then let ps := args ++ replicate (omitted m args) VNone in
             ([EvCall rpc ps], (d rpc ps st).1, (d rpc ps st).2)
        else ([], Raised arity_error, st).
Proof.
  intros HC Hget Hpub.
  destruct (exposed_wired C n m HC Hget Hpub) as (rpc & Hdoc & Hfw & Hnone).
  exists rpc. split; [done|]. intros args d st.
  rewrite (run_forwards m rpc args d st Hfw).
  destruct (accepts m args) eqn:Hacc; [|done].
  by rewrite (bound_params_omitted m rpc args Hfw Hnone Hacc).
Qed.

(** ** Dispatch of the exposed operations *)

(** C1, as stated, fails: [unlock_account] called with two arguments
    requests [personal_unlockAccount] with three parameters, the third
    being the default [None], so the parameters are not the arguments. *)
Lemma unlock_account_params_differ_from_args :
  let args := [VStr "0x9C3f"; VStr "correct horse"] in
  In GethPersonal.cls namespace_classes /\
  is_public "unlock_account" = true /\
  documented GethPersonal.cls "unlock_account" = Some "personal_unlockAccount" /\
  trace_of (run (answering (VBool true))
              (invoke GethPersonal.cls "unlock_account" args) ∅)
  = [EvCall "personal_unlockAccount"
       [VStr "0x9C3f"; VStr "correct horse"; VNone]] /\
  trace_of (run (answering (VBool true))
              (invoke GethPersonal.cls "unlock_account" args) ∅)
  <> [EvCall "personal_unlockAccount" args].
Proof.
  simpl. split; [by left|]. split; [done|]. split; [by vm_compute|].
  split; [by vm_compute|]. vm_compute. discriminate.
Qed.

(** C1 (amended): for every exposed operation of every namespace class,
    a call whose arguments fit the signature issues exactly one dispatcher
    call, with the documented JSON-RPC method string, and with parameters
    equal to the arguments in order, followed by [None] for each trailing
    optional parameter the call leaves out; no argument is transformed.
    When no parameter is left out the parameters are the arguments. *)
Theorem exposed_operation_dispatch C n m args d st :
  In C namespace_classes ->
  getattr C n = Some m -> is_public n = true ->
  accepts m args = true ->
  exists rpc, documented C n = Some rpc /\
    trace_of (run d (call_member m args) st)
    = [EvCall rpc (args ++ replicate (omitted m args) VNone)] /\
    (omitted m args = 0 ->
     trace_of (run d (call_member m args) st) = [EvCall rpc args]).
Proof.
  intros HC Hget Hpub Hacc.
  destruct (exposed_run C n m HC Hget Hpub) as (rpc & Hdoc & Hrun).
  exists rpc. split; [done|]. rewrite Hrun, Hacc. simpl.
  split; [done|]. intros ->. simpl. by rewrite app_nil_r.
Qed.

Lemma exposed_operation_dispatch_witness :
  exists rpc,
    documented GethPersonal.cls "send_transaction" = Some rpc /\
    trace_of (run (answering (VStr "0x5e1d"))
                (call_member
                   (Def false ["transaction"; "passphrase"] []
                      GethPersonal.send_transaction)
                   [VRef 0; VStr "pw"]) ∅)
    = [EvCall rpc ([VRef 0; VStr "pw"] ++ replicate 0 VNone)] /\
    (0 = 0 ->
     trace_of (run (answering (VStr "0x5e1d"))
                (call_member
                   (Def false ["transaction"; "passphrase"] []
                      GethPersonal.send_transaction)
                   [VRef 0; VStr "pw"]) ∅)
     = [EvCall rpc [VRef 0; VStr "pw"]]).
Proof.
  apply (exposed_operation_dispatch GethPersonal.cls "send_transaction"
           (Def false ["transaction"; "passphrase"] []
              GethPersonal.send_transaction)
           [VRef 0; VStr "pw"] (answering (VStr "0x5e1d")) ∅).
  - simpl. left. reflexivity.
  - reflexivity.
  - reflexivity.
  - reflexivity.
Defined.

(** ** Deprecated aliases *)

Lemma find_spelling_norm a o names :
  norm a = norm o -> find_spelling a names = find_spelling o names.
Proof.
  intros Hn. induction names as [|c rest IH]; simpl; [done|].
  by rewrite Hn, IH.
Qed.

Lemma documented_in_norm table ns a o :
  norm a = norm o -> documented_in table ns a = documented_in table ns o.
Proof.
  intros Hn. induction table as [|[k names] rest IH]; simpl; [done|].
  by rewrite IH, (find_spelling_norm a o names Hn).
Qed.

Lemma documented_norm C a o :
  norm a = norm o -> documented C a = documented C o.
Proof.
  intros Hn. unfold documented. destruct (namespace_of C) as [ns|]; [|done].
  apply (documented_in_norm exposed_interface ns a o Hn).
Qed.

Lemma alias_pair_norm a o : alias_pair a o = true -> norm a = norm o.
Proof.
  unfold alias_pair, camel_of. rewrite !andb_true_iff.
  intros [[_ Hn] _]. by apply String.eqb_eq.
Qed.

Lemma accepts_signature ma mo args :
  signature ma = signature mo -> accepts ma args = accepts mo args.
Proof.
  destruct ma as [? ps ds ?|?], mo as [? ps' ds' ?|?]; simpl; try done.
  intros [= Hps Hds]. unfold bind_args. rewrite Hps, Hds.
  by destruct (_ || _)%nat.
Qed.

Lemma omitted_signature ma mo args :
  signature ma = signature mo -> omitted ma args = omitted mo args.
Proof.
  destruct ma as [? ps ds ?|?], mo as [? ps' ds' ?|?]; simpl; try done.
  by intros [= -> _].
Qed.

Lemma aliases_agree_all : forallb aliases_agree namespace_classes = true.
Proof. by vm_compute. Qed.

Lemma alias_signature C a o ma mo :
  In C namespace_classes ->
  getattr C a = Some ma -> getattr C o = Some mo ->
  is_public a = true -> is_public o = true ->
  alias_pair a o = true ->
  signature ma = signature mo \/ a = "signTypedData".
Proof.
  intros HC Ha Ho Hpa Hpo Hpair.
  pose proof aliases_agree_all as Hall.
  rewrite forallb_forall in Hall. specialize (Hall C HC).
  unfold aliases_agree in Hall. rewrite forallb_forall in Hall.
  specialize (Hall (a, ma) (getattr_exposed C a ma Ha Hpa)).
  rewrite forallb_forall in Hall.
  specialize (Hall (o, mo) (getattr_exposed C o mo Ho Hpo)).
  simpl in Hall. rewrite Hpair in Hall. simpl in Hall.
  apply orb_true_iff in Hall as [Hsig|Hname].
  - left. by apply bool_decide_eq_true in Hsig.
  - right. by apply String.eqb_eq in Hname.
Qed.

(** The one pair whose signatures differ: the alias takes two or three
    arguments, the canonical operation exactly three. *)
Lemma signTypedData_but_two C o ma mo args :
  In C namespace_classes ->
  getattr C "signTypedData" = Some ma -> getattr C o = Some mo ->
  is_public o = true ->
  alias_pair "signTypedData" o = true ->
  length args <> 2 ->
  call_member ma args = call_member mo args.
Proof.
  intros HC Ha Ho Hpo Hpair Hlen.
  simpl in HC.
  destruct HC as [<-|[<-|[<-|[<-|[<-|[<-|[]]]]]]];
    try (vm_compute in Ha; discriminate).
  apply getattr_exposed in Ho; [|done].
  injection Ha as <-.
  revert Ho. unfold exposed. simpl.
  intros Ho.
  repeat (destruct Ho as [Ho|Ho];
          [injection Ho as <- <-; try (vm_compute in Hpair; discriminate)|]);
    try contradiction.
  destruct args as [|x [|y [|z [|w rest]]]]; simpl in *; try done.
Qed.

(** C2, as stated, fails: on the same two arguments the alias
    [signTypedData] requests [personal_signTypedData] and returns the
    dispatcher's value, while [sign_typed_data] raises TypeError without
    any request. *)
Lemma signTypedData_differs_from_sign_typed_data :
  let args := [VRef 7; VStr "0xAb54"] in
  let d := answering (VStr "0x1c") in
  alias_pair "signTypedData" "sign_typed_data" = true /\
  run d (invoke GethPersonal.cls "signTypedData" args) ∅
  = ([EvCall "personal_signTypedData" [VRef 7; VStr "0xAb54"; VNone]],
     Returned (VStr "0x1c"), ∅) /\
  run d (invoke GethPersonal.cls "sign_typed_data" args) ∅
  = ([], Raised arity_error, ∅) /\
  run d (invoke GethPersonal.cls "signTypedData" args) ∅
  <> run d (invoke GethPersonal.cls "sign_typed_data" args) ∅.
Proof.
  simpl. split; [by vm_compute|]. split; [done|]. split; [done|].
  discriminate.
Qed.

(** C2 (amended): for every deprecated camelCase alias paired with a
    canonical snake_case operation of the same namespace class, and every
    argument list other than two arguments given to [signTypedData], the
    alias and the canonical operation issue the same dispatcher call and,
    for the same dispatcher, end with the same result, the same failure
    and the same store. *)
Theorem alias_matches_canonical C a o ma mo args d st :
  In C namespace_classes ->
  getattr C a = Some ma -> getattr C o = Some mo ->
  is_public a = true -> is_public o = true ->
  alias_pair a o = true ->
  ~ (a = "signTypedData" /\ length args = 2) ->
  run d (call_member ma args) st = run d (call_member mo args) st.
Proof.
  intros HC Ha Ho Hpa Hpo Hpair Hexcept.
  destruct (alias_signature C a o ma mo HC Ha Ho Hpa Hpo Hpair) as [Hsig | ->].
  - destruct (exposed_run C a ma HC Ha Hpa) as (rpc & Hdoc & Hrun).
    destruct (exposed_run C o mo HC Ho Hpo) as (rpc' & Hdoc' & Hrun').
    rewrite (documented_norm C a o (alias_pair_norm a o Hpair)) in Hdoc.
    assert (rpc = rpc') as <- by congruence.
    rewrite Hrun, Hrun'.
    by rewrite (accepts_signature ma mo args Hsig),
               (omitted_signature ma mo args Hsig).
  - rewrite (signTypedData_but_two C o ma mo args HC Ha Ho Hpo Hpair); [done|].
    intros Hlen. by apply Hexcept.
Qed.

Lemma alias_matches_canonical_witness :
  run (raising_for "admin_startRPC" (Exn "ConnectionError" [VStr "refused"]))
    (call_member (Attr admin.startRPC) [VStr "127.0.0.1"; VInt 8545]) ∅
  = run (raising_for "admin_startRPC" (Exn "ConnectionError" [VStr "refused"]))
      (call_member (Attr admin.start_rpc) [VStr "127.0.0.1"; VInt 8545]) ∅.
Proof.
  apply (alias_matches_canonical GethAdmin.cls "startRPC" "start_rpc").
  - simpl. right. right. left. reflexivity.
  - reflexivity.
  - reflexivity.
  - reflexivity.
  - reflexivity.
  - vm_compute. reflexivity.
  - intros [Hname _]. discriminate Hname.
Defined.

(** ** camelCase spellings *)

(** No class binds a public name twice: what [getattr] finds for an
    exposed name is the exposed member. *)
Lemma exposed_getattr C n m :
  In C namespace_classes -> In (n, m) (exposed C) -> getattr C n = Some m.
Proof.
  intros HC Hin. simpl in HC.
  destruct HC as [<-|[<-|[<-|[<-|[<-|[<-|[]]]]]]];
    vm_compute in Hin;
    repeat (destruct Hin as [Hin|Hin]; [by injection Hin as <- <-|]);
    contradiction.
Qed.

Lemma op_names_exposed C a :
  In a (op_names C) -> exists ma, In (a, ma) (exposed C).
Proof.
  unfold op_names. intros Ha.
  apply list_elem_of_In, list_elem_of_fmap in Ha as ([a' ma] & -> & Hin).
  exists ma. by apply list_elem_of_In.
Qed.

Lemma exposed_op_names C a ma : In (a, ma) (exposed C) -> In a (op_names C).
Proof.
  intros Hin. apply list_elem_of_In, list_elem_of_fmap.
  exists (a, ma). split; [done|]. by apply list_elem_of_In.
Qed.

Lemma camel_complete_classes :
  forallb camel_complete
    [GethPersonal.cls; GethAdmin.cls; GethMiner.cls; GethTxPool.cls;
     AsyncGethTxPool.cls] = true.
Proof. by vm_compute. Qed.

Lemma camel_of_norm a o : camel_of a o = true -> norm a = norm o.
Proof.
  unfold camel_of. rewrite !andb_true_iff. intros [_ Hn].
  by apply String.eqb_eq.
Qed.

Lemma camel_spelling_exists C o mo :
  In C namespace_classes ->
  getattr C o = Some mo -> is_public o = true ->
  is_snake_case o = true ->
  (cname C = "AsyncGethPersonal" -> o = "sign") ->
  o <> "list_wallets" ->
  exists a, In a (op_names C) /\ camel_of a o = true.
Proof.
  intros HC Hget Hpub Hsnake Hasync Hlw.
  assert (In o (op_names C)) as Ho
    by (eapply exposed_op_names, getattr_exposed; eauto).
  assert (cname C = "AsyncGethPersonal" \/
          In C [GethPersonal.cls; GethAdmin.cls; GethMiner.cls;
                GethTxPool.cls; AsyncGethTxPool.cls]) as [Hname|HC'].
  { simpl in HC. destruct HC as [<-|[<-|[<-|[<-|[<-|[<-|[]]]]]]];
      simpl; tauto. }
  - rewrite (Hasync Hname). exists "sign". split; [|by vm_compute].
    rewrite <- (Hasync Hname). exact Ho.
  - pose proof camel_complete_classes as Hall.
    rewrite forallb_forall in Hall. specialize (Hall C HC').
    unfold camel_complete in Hall. rewrite forallb_forall in Hall.
    specialize (Hall o Ho). rewrite Hsnake in Hall. simpl in Hall.
    destruct (String.eqb o "list_wallets") eqn:Heq.
    + apply String.eqb_eq in Heq. contradiction.
    + simpl in Hall. apply existsb_exists in Hall as (a & Ha & Hcamel).
      by exists a.
Qed.

(** C3, as stated, fails: [AsyncGethPersonal] exposes [ec_recover] but no
    camelCase spelling of it (calling [ecRecover] there raises
    AttributeError), and [GethPersonal] exposes [list_wallets] without a
    [listWallets]. *)
Lemma AsyncGethPersonal_has_no_ecRecover :
  In AsyncGethPersonal.cls namespace_classes /\
  In "ec_recover" (op_names AsyncGethPersonal.cls) /\
  is_snake_case "ec_recover" = true /\
  (forall a, In a (op_names AsyncGethPersonal.cls) ->
             camel_of a "ec_recover" = false) /\
  run (answering (VStr "0x9C3f"))
    (invoke AsyncGethPersonal.cls "ecRecover" [VStr "msg"; VStr "0x1c"]) ∅
  = ([], Raised (Exn "AttributeError" [VStr "ecRecover"]), ∅) /\
  In "list_wallets" (op_names GethPersonal.cls) /\
  (forall a, In a (op_names GethPersonal.cls) ->
             camel_of a "list_wallets" = false).
Proof.
  split; [simpl; tauto|]. split; [vm_compute; tauto|]. split; [done|].
  split.
  { intros a Ha. vm_compute in Ha.
    repeat (destruct Ha as [<-|Ha]; [by vm_compute|]). contradiction. }
  split; [done|]. split; [vm_compute; tauto|].
  intros a Ha. vm_compute in Ha.
  repeat (destruct Ha as [<-|Ha]; [by vm_compute|]). contradiction.
Qed.

(** C3 (amended): GethAdmin, GethMiner, GethTxPool and AsyncGethTxPool
    expose, for each of their snake_case operations, the camelCase spelling
    of its name (the name itself when it is a single word), forwarding to
    the same JSON-RPC method; GethPersonal does so for each snake_case
    operation except [list_wallets], for which it has no [listWallets];
    AsyncGethPersonal exposes snake_case names only, so that only its
    single-word operation [sign] has a camelCase spelling there. *)
Theorem camelCase_spelling_exposed C o mo :
  In C namespace_classes ->
  getattr C o = Some mo -> is_public o = true ->
  is_snake_case o = true ->
  (cname C = "AsyncGethPersonal" -> o = "sign") ->
  o <> "list_wallets" ->
  (exists a ma rpc,
     getattr C a = Some ma /\ is_public a = true /\ camel_of a o = true /\
     forwards_to ma rpc /\ forwards_to mo rpc) /\
  (forall n, In n (op_names AsyncGethPersonal.cls) ->
             is_snake_case n = true) /\
  getattr GethPersonal.cls "listWallets" = None.
Proof.
  intros HC Hget Hpub Hsnake Hasync Hlw. split; [|split].
  - destruct (camel_spelling_exists C o mo HC Hget Hpub Hsnake Hasync Hlw)
      as (a & Ha & Hcamel).
    destruct (op_names_exposed C a Ha) as [ma Hin].
    assert (is_public a = true) as Hpa.
    { apply list_elem_of_In, list_elem_of_filter in Hin as [Hp _]. exact Hp. }
    pose proof (exposed_getattr C a ma HC Hin) as Hga.
    destruct (exposed_wired C a ma HC Hga Hpa) as (rpc & Hdoc & Hfw & _).
    destruct (exposed_wired C o mo HC Hget Hpub) as (rpc' & Hdoc' & Hfw' & _).
    rewrite (documented_norm C a o (camel_of_norm a o Hcamel)) in Hdoc.
    assert (rpc = rpc') as <- by congruence.
    by exists a, ma, rpc.
  - intros n Hn. vm_compute in Hn.
    repeat (destruct Hn as [<-|Hn]; [by vm_compute|]). contradiction.
  - by vm_compute.
Qed.

Lemma camelCase_spelling_exposed_witness :
  (exists a ma rpc,
     getattr GethMiner.cls a = Some ma /\ is_public a = true /\
     camel_of a "set_gas_price" = true /\
     forwards_to ma rpc /\ forwards_to (Attr miner.set_gas_price) rpc) /\
  (forall n, In n (op_names AsyncGethPersonal.cls) ->
             is_snake_case n = true) /\
  getattr GethPersonal.cls "listWallets" = None.
Proof.
  apply (camelCase_spelling_exposed GethMiner.cls "set_gas_price").
  - simpl. right. right. right. left. reflexivity.
  - reflexivity.
  - reflexivity.
  - reflexivity.
  - vm_compute. intros H. discriminate H.
  - intros H. discriminate H.
Defined.

(** ** Errors *)

(** C4: for every exposed operation called with arguments that fit its
    signature, the outcome is the outcome of the single dispatcher call:
    the operation raises [E] exactly when the dispatcher raised [E] for
    that call, unchanged, and raises nothing else.  In particular, when
    the dispatcher raises [E] for [admin_addPeer], [add_peer(url)] raises
    [E]. *)
Theorem dispatcher_error_propagates C n m args d st :
  In C namespace_classes ->
  getattr C n = Some m -> is_public n = true ->
  accepts m args = true ->
  (exists rpc ps,
     trace_of (run d (call_member m args) st) = [EvCall rpc ps] /\
     outcome_of (run d (call_member m args) st) = (d rpc ps st).1) /\
  (forall E,
     outcome_of (run d (call_member m args) st) = Raised E <->
     exists rpc ps,
       trace_of (run d (call_member m args) st) = [EvCall rpc ps] /\
       (d rpc ps st).1 = Raised E) /\
  (forall url E st',
     d "admin_addPeer" [url] st = (Raised E, st') ->
     run d (invoke GethAdmin.cls "add_peer" [url]) st
     = ([EvCall "admin_addPeer" [url]], Raised E, st')).
Proof.
  intros HC Hget Hpub Hacc.
  destruct (exposed_run C n m HC Hget Hpub) as (rpc & _ & Hrun).
  rewrite Hrun, Hacc. cbn [trace_of outcome_of fst snd].
  split; [by eauto|]. split.
  - intros E. split.
    + intros HE. eauto.
    + intros (rpc' & ps' & [= <- <-] & HE). exact HE.
  - intros url E st' Hd.
    change (invoke GethAdmin.cls "add_peer" [url])
      with (Request "admin_addPeer" [url] Return).
    by rewrite run_request, Hd.
Qed.

Lemma dispatcher_error_propagates_witness :
  let E := Exn "ValueError" [VStr "invalid enode"] in
  outcome_of (run (raising_for "admin_addPeer" E)
                (call_member (Attr admin.add_peer) [VStr "enode://ab@h:1"]) ∅)
  = Raised E.
Proof.
  intros E.
  destruct (dispatcher_error_propagates GethAdmin.cls "add_peer"
              (Attr admin.add_peer) [VStr "enode://ab@h:1"]
              (raising_for "admin_addPeer" E) ∅) as (_ & Hiff & _).
  - simpl. right. right. left. reflexivity.
  - reflexivity.
  - reflexivity.
  - reflexivity.
  - apply Hiff. exists "admin_addPeer", [VStr "enode://ab@h:1"].
    split; reflexivity.
Defined.

(** ** Sync and async variants *)

Lemma same_signatures_pairs : forallb same_signatures sync_async_pairs = true.
Proof. by vm_compute. Qed.

Lemma sync_async_signature S A n ms ma :
  In (S, A) sync_async_pairs ->
  getattr S n = Some ms -> getattr A n = Some ma -> is_public n = true ->
  signature ms = signature ma.
Proof.
  intros HSA Hs Ha Hpub.
  pose proof same_signatures_pairs as Hall.
  rewrite forallb_forall in Hall. specialize (Hall (S, A) HSA).
  unfold same_signatures in Hall. rewrite forallb_forall in Hall.
  specialize (Hall (n, ms) (getattr_exposed S n ms Hs Hpub)).
  rewrite forallb_forall in Hall.
  specialize (Hall (n, ma) (getattr_exposed A n ma Ha Hpub)).
  simpl in Hall. rewrite String.eqb_refl in Hall. simpl in Hall.
  by apply bool_decide_eq_true in Hall.
Qed.

Lemma sync_async_pairs_spec S A :
  In (S, A) sync_async_pairs ->
  In S namespace_classes /\ In A namespace_classes /\
  is_async S = false /\ is_async A = true /\
  forall n, documented S n = documented A n.
Proof.
  simpl. intros [[= <- <-]|[[= <- <-]|[]]]; simpl; tauto.
Qed.

(** C5: for every operation that a sync class and its async counterpart
    both expose (all Personal and all TxPool operations), and for the same
    dispatcher, calling the sync variant and awaiting the async variant
    issue the same request and end with the same value or the same error.
    In particular, when the dispatcher returns [V] for
    [personal_listAccounts], both [list_accounts()] return [V]. *)
Theorem sync_async_agree S A n ms ma args d st :
  In (S, A) sync_async_pairs ->
  getattr S n = Some ms -> getattr A n = Some ma -> is_public n = true ->
  is_async S = false /\ is_async A = true /\
  run d (call_member ms args) st = run d (await (call_member ma args)) st /\
  (forall V st',
     d "personal_listAccounts" [] st = (Returned V, st') ->
     outcome_of (run d (invoke GethPersonal.cls "list_accounts" []) st)
     = Returned V /\
     outcome_of
       (run d (await (invoke AsyncGethPersonal.cls "list_accounts" [])) st)
     = Returned V).
Proof.
  intros HSA Hs Ha Hpub.
  destruct (sync_async_pairs_spec S A HSA) as (HS & HA & Hsync & Hasync & Hdoc).
  split; [done|]. split; [done|]. split.
  - destruct (exposed_run S n ms HS Hs Hpub) as (rpc & Hrpc & Hrun).
    destruct (exposed_run A n ma HA Ha Hpub) as (rpc' & Hrpc' & Hrun').
    rewrite Hdoc in Hrpc. assert (rpc = rpc') as <- by congruence.
    pose proof (sync_async_signature S A n ms ma HSA Hs Ha Hpub) as Hsig.
    unfold await. rewrite Hrun, Hrun'.
    by rewrite (accepts_signature ms ma args Hsig),
               (omitted_signature ms ma args Hsig).
  - intros V st' Hd. unfold await.
    change (invoke GethPersonal.cls "list_accounts" [])
      with (Request "personal_listAccounts" [] Return).
    change (invoke AsyncGethPersonal.cls "list_accounts" [])
      with (Request "personal_listAccounts" [] Return).
    by rewrite run_request, Hd.
Qed.

Lemma sync_async_agree_witness :
  run (answering (VList [VStr "0x9C3f"; VStr "0x11aB"]))
    (call_member (Def false [] [] GethPersonal.list_accounts) []) ∅
  = run (answering (VList [VStr "0x9C3f"; VStr "0x11aB"]))
      (await (call_member (Def true [] [] AsyncGethPersonal.list_accounts) []))
      ∅.
Proof.
  apply (sync_async_agree GethPersonal.cls AsyncGethPersonal.cls
           "list_accounts").
  - simpl. left. reflexivity.
  - reflexivity.
  - reflexivity.
  - reflexivity.
Defined.

(** ** Default parameters *)

(** C6: [unlock_account(account, passphrase)] without a duration requests
    [personal_unlockAccount] with three parameters, the third being
    [None]; so do the async variant and the deprecated [unlockAccount]. *)
Theorem unlock_account_default_duration account passphrase d st :
  trace_of (run d (invoke GethPersonal.cls "unlock_account"
                     [account; passphrase]) st)
  = [EvCall "personal_unlockAccount" [account; passphrase; VNone]] /\
  trace_of (run d (await (invoke AsyncGethPersonal.cls "unlock_account"
                            [account; passphrase])) st)
  = [EvCall "personal_unlockAccount" [account; passphrase; VNone]] /\
  trace_of (run d (invoke GethPersonal.cls "unlockAccount"
                     [account; passphrase]) st)
  = [EvCall "personal_unlockAccount" [account; passphrase; VNone]].
Proof.
  unfold await.
  change (invoke GethPersonal.cls "unlock_account" [account; passphrase])
    with (Request "personal_unlockAccount" [account; passphrase; VNone] Return).
  change (invoke AsyncGethPersonal.cls "unlock_account" [account; passphrase])
    with (Request "personal_unlockAccount" [account; passphrase; VNone] Return).
  change (invoke GethPersonal.cls "unlockAccount" [account; passphrase])
    with (Request "personal_unlockAccount" [account; passphrase; VNone] Return).
  by rewrite run_request.
Qed.

(** C9: the deprecated [signTypedData] of GethPersonal defaults its
    password to [None]: called with two arguments it requests
    [personal_signTypedData] with [None] as third parameter, whereas
    [sign_typed_data] rejects two arguments with a TypeError and issues no
    request; both accept three arguments. *)
Theorem signTypedData_default_password message account d st :
  getattr GethPersonal.cls "signTypedData"
  = Some (Def false ["message"; "account"; "password"] [VNone]
            GethPersonal.signTypedData) /\
  getattr GethPersonal.cls "sign_typed_data"
  = Some (Def false ["message"; "account"; "password"] []
            GethPersonal.sign_typed_data) /\
  trace_of (run d (invoke GethPersonal.cls "signTypedData"
                     [message; account]) st)
  = [EvCall "personal_signTypedData" [message; account; VNone]] /\
  run d (invoke GethPersonal.cls "sign_typed_data" [message; account]) st
  = ([], Raised arity_error, st) /\
  (forall password,
     run d (invoke GethPersonal.cls "signTypedData"
              [message; account; password]) st
     = run d (invoke GethPersonal.cls "sign_typed_data"
                [message; account; password]) st).
Proof.
  split; [done|]. split; [done|].
  change (invoke GethPersonal.cls "signTypedData" [message; account])
    with (Request "personal_signTypedData" [message; account; VNone] Return).
  change (invoke GethPersonal.cls "sign_typed_data" [message; account])
    with (Raise arity_error).
  rewrite run_request. split; [done|]. split; [done|]. intros password.
  done.
Qed.

(** ** No mutation *)

(** C8: no exposed operation writes to any object: its trace holds
    dispatcher calls only, the parameters of the call begin with the
    arguments as given, the store it leaves is the store the dispatcher
    left (or the initial one when no call was made), and the outcome is the
    dispatcher's outcome as it is, or a failure.  With a dispatcher that
    does not touch the store, every input is as it was before the call. *)
Theorem operations_do_not_mutate C n m args d st :
  In C namespace_classes ->
  getattr C n = Some m -> is_public n = true ->
  let r := run d (call_member m args) st in
  Forall (fun e => is_call e = true) (trace_of r) /\
  (forall rpc ps, In (EvCall rpc ps) (trace_of r) ->
                  exists filled, ps = args ++ filled) /\
  ((trace_of r = [] /\ store_of r = st /\ outcome_of r = Raised arity_error)
   \/ exists rpc ps,
        trace_of r = [EvCall rpc ps] /\
        store_of r = (d rpc ps st).2 /\ outcome_of r = (d rpc ps st).1) /\
  ((forall rpc ps s, (d rpc ps s).2 = s) -> store_of r = st).
Proof.
  intros HC Hget Hpub.
  destruct (exposed_run C n m HC Hget Hpub) as (rpc & _ & Hrun).
  cbv zeta. rewrite Hrun.
  destruct (accepts m args); cbn [trace_of store_of outcome_of fst snd].
  - split; [by repeat constructor|]. split; [|split].
    + intros rpc' ps' [[= <- <-]|[]]. eauto.
    + right. eauto.
    + intros Hro. apply Hro.
  - split; [constructor|]. split; [|split].
    + intros rpc' ps' [].
    + by left.
    + done.
Qed.

Lemma operations_do_not_mutate_witness :
  let tx := set_item 0 "to" (VStr "0x11aB") (set_item 0 "value" (VInt 5) ∅) in
  store_of (run (answering (VStr "0x5e1d"))
              (call_member
                 (Def false ["transaction"; "passphrase"] []
                    GethPersonal.send_transaction)
                 [VRef 0; VStr "pw"]) tx)
  = tx.
Proof.
  intros tx.
  destruct (operations_do_not_mutate GethPersonal.cls "send_transaction"
              (Def false ["transaction"; "passphrase"] []
                 GethPersonal.send_transaction)
              [VRef 0; VStr "pw"] (answering (VStr "0x5e1d")) tx)
    as (_ & _ & _ & Hstore).
  - simpl. left. reflexivity.
  - reflexivity.
  - reflexivity.
  - apply Hstore. intros rpc ps s. reflexivity.
Defined.

(** ** Shape of the layer *)

(** C7: every admin and every miner operation exists on a class in
    blocking mode, none of them as a coroutine function; the only classes
    in non-blocking mode are AsyncGethPersonal and AsyncGethTxPool, which
    bind the personal and txpool namespaces and have no attribute named
    after an admin or miner operation; Personal and TxPool each have a
    sync and an async class. *)
Theorem admin_and_miner_sync_only :
  Forall (fun n => is_Some (getattr GethAdmin.cls n))
    ["addPeer"; "nodeInfo"; "peers"; "datadir"; "startRPC"; "startWS";
     "stopRPC"; "stopWS"] /\
  Forall (fun n => is_Some (getattr GethMiner.cls n))
    ["makeDag"; "setExtra"; "setEtherbase"; "setGasPrice"; "start"; "stop";
     "startAutoDag"; "stopAutoDag"] /\
  is_async GethAdmin.cls = false /\ is_async GethMiner.cls = false /\
  Forall (fun C => Forall (fun nm => is_coroutine_function nm.2 = false)
                     (all_attrs C))
    [GethAdmin.cls; GethMiner.cls] /\
  cname <$> List.filter (binds_namespace "admin") geth_classes
  = ["GethAdmin"] /\
  cname <$> List.filter (binds_namespace "miner") geth_classes
  = ["GethMiner"] /\
  cname <$> async_classes = ["AsyncGethPersonal"; "AsyncGethTxPool"] /\
  namespace_of <$> async_classes = [Some "personal"; Some "txpool"] /\
  Forall (fun C => Forall (fun n => getattr C n = None)
                     (op_names GethAdmin.cls ++ op_names GethMiner.cls))
    async_classes /\
  (fun C => (cname C, is_async C)) <$> List.filter (binds_namespace "personal") geth_classes
  = [("BaseGethPersonal", false); ("GethPersonal", false);
     ("AsyncGethPersonal", true)] /\
  (fun C => (cname C, is_async C)) <$> List.filter (binds_namespace "txpool") geth_classes
  = [("BaseTxPool", false); ("GethTxPool", false);
     ("AsyncGethTxPool", true)].
Proof.
  split; [repeat constructor; by eexists|].
  split; [repeat constructor; by eexists|].
  split; [done|]. split; [done|].
  split; [repeat (apply Forall_cons_2 || apply Forall_nil_2); done|].
  split; [by vm_compute|]. split; [by vm_compute|].
  split; [by vm_compute|]. split; [by vm_compute|].
  split.
  { change async_classes with [AsyncGethPersonal.cls; AsyncGethTxPool.cls].
    repeat (apply Forall_cons_2 || apply Forall_nil_2); by vm_compute. }
  split; by vm_compute.
Qed.

(** C10: the Geth aggregate declares exactly two namespace attributes,
    [personal: GethPersonal] and [admin: GethAdmin], and binds nothing
    else; no attribute [miner] or [txpool] is found on it, while GethMiner
    and GethTxPool are classes of the module in their own right. *)
Theorem Geth_declares_personal_and_admin :
  annotations Geth.cls = [("personal", "GethPersonal"); ("admin", "GethAdmin")] /\
  all_attrs Geth.cls = [] /\
  (annotations Geth.cls).*1 = ["personal"; "admin"] /\
  getattr Geth.cls "miner" = None /\ getattr Geth.cls "txpool" = None /\
  In GethMiner.cls geth_classes /\ In GethTxPool.cls geth_classes /\
  (cname <$> geth_classes)
  = ["BaseGethPersonal"; "GethPersonal"; "AsyncGethPersonal"; "BaseTxPool";
     "GethTxPool"; "AsyncGethTxPool"; "GethAdmin"; "GethMiner"; "Geth"].
Proof.
  repeat split; try done; simpl; tauto.
Qed.

(** * Further properties of geth.py *)

(** ** Wrappers and their private bindings *)

Ltac by_args args Hacc :=
  destruct args as [|? [|? [|? [|? ?]]]]; simpl in Hacc;
  try discriminate Hacc; reflexivity.

(** X1: every [def] wrapper of GethPersonal, AsyncGethPersonal, GethTxPool
    and AsyncGethTxPool delegates to the private attribute that carries its
    own name with a leading underscore, handing it the bound parameters in
    order: [ec_recover] calls [_ec_recover], [unlockAccount] calls
    [_unlockAccount], and so on; no wrapper is wired to another one's
    binding. *)
Theorem wrapper_calls_own_binding C n m args :
  In C wrapper_classes ->
  getattr C n = Some m -> is_public n = true ->
  accepts m args = true ->
  exists mp,
    getattr C (private_name n) = Some mp /\
    signature mp = None /\
    call_member m args = call_member mp (bound_params m args).
Proof.
  intros HC Hget Hpub. revert args.
  assert (In C namespace_classes) as HC'.
  { simpl in HC. simpl. tauto. }
  pose proof (getattr_exposed C n m Hget Hpub) as Hin.
  simpl in HC.
  destruct HC as [<-|[<-|[<-|[<-|[]]]]];
    vm_compute in Hin;
    repeat (destruct Hin as [Hin|Hin];
            [injection Hin as <- <-; intros args Hacc;
             eexists; split; [vm_compute; reflexivity|];
             split; [reflexivity|]; by_args args Hacc|]);
    contradiction.
Qed.

Lemma wrapper_calls_own_binding_witness :
  exists mp,
    getattr AsyncGethPersonal.cls (private_name "lock_account") = Some mp /\
    signature mp = None /\
    call_member (Def true ["account"] [] AsyncGethPersonal.lock_account)
      [VStr "0x9C3f"]
    = call_member mp
        (bound_params (Def true ["account"] [] AsyncGethPersonal.lock_account)
           [VStr "0x9C3f"]).
Proof.
  apply (wrapper_calls_own_binding AsyncGethPersonal.cls "lock_account").
  - simpl. right. left. reflexivity.
  - reflexivity.
  - reflexivity.
  - reflexivity.
Defined.

(** ** Arity *)

Lemma accepts_iff_length m np nd args :
  signature m = Some (np, nd) ->
  accepts m args = true <-> np - nd <= length args /\ length args <= np.
Proof.
  destruct m as [co ps ds body|c]; simpl; [|discriminate].
  intros [= <- <-]. unfold bind_args.
  destruct (_ || _)%nat eqn:Hguard.
  - apply orb_true_iff in Hguard as [H|H]; apply Nat.ltb_lt in H;
      split; [discriminate|lia|discriminate|lia].
  - apply orb_false_iff in Hguard as [Hlow Hhigh].
    apply Nat.ltb_ge in Hlow, Hhigh. split; [lia|done].
Qed.



Lemma defaults_census_all : forallb defaults_census namespace_classes = true.
Proof. by vm_compute. Qed.

(** X3: the only operations that may be called with an argument left out
    are [unlock_account] (sync and async), [unlockAccount] and
    [signTypedData], each with three parameters of which only the last is
    optional; every other [def] operation is accepted with exactly as many
    arguments as it has parameters ([sign] and [sign_typed_data] need their
    password although it may be [None]). *)
Theorem only_last_parameter_optional C n m np nd args :
  In C namespace_classes ->
  getattr C n = Some m -> is_public n = true ->
  signature m = Some (np, nd) ->
  accepts m args = true ->
  length args = np \/
  (length args = 2 /\ np = 3 /\ nd = 1 /\ In n optional_parameter_ops).
Proof.
  intros HC Hget Hpub Hsig Hacc.
  apply (accepts_iff_length m np nd args Hsig) in Hacc.
  pose proof defaults_census_all as Hall.
  rewrite forallb_forall in Hall. specialize (Hall C HC).
  unfold defaults_census in Hall. rewrite forallb_forall in Hall.
  specialize (Hall (n, m) (getattr_exposed C n m Hget Hpub)).
  cbn [fst snd] in Hall. rewrite Hsig in Hall.
  apply orb_true_iff in Hall as [Hnd|Hopt].
  - apply Nat.eqb_eq in Hnd. left. lia.
  - rewrite !andb_true_iff in Hopt. destruct Hopt as [[Hnd Hnp] Hn].
    apply Nat.eqb_eq in Hnd, Hnp.
    apply existsb_exists in Hn as (k & Hk & Heq).
    apply String.eqb_eq in Heq as ->.
    destruct (decide (length args = np)) as [|Hne]; [by left|].
    right. repeat split; [lia|done|done|done].
Qed.

Lemma only_last_parameter_optional_witness :
  length [VStr "0x9C3f"; VStr "pw"] = 3 \/
  (length [VStr "0x9C3f"; VStr "pw"] = 2 /\ 3 = 3 /\ 1 = 1 /\
   In "unlockAccount" optional_parameter_ops).
Proof.
  apply (only_last_parameter_optional GethPersonal.cls "unlockAccount"
           (Def false ["account"; "passphrase"; "duration"] [VNone]
              GethPersonal.unlockAccount) 3 1 [VStr "0x9C3f"; VStr "pw"]).
  - simpl. left. reflexivity.
  - reflexivity.
  - reflexivity.
  - reflexivity.
  - reflexivity.
Defined.

(** ** Calling mode *)

Lemma coroutine_consistent_all : forallb coroutine_consistent geth_classes = true.
Proof. by vm_compute. Qed.

(** X4: in every class of geth.py, a method written in the class body is a
    coroutine function ([async def]) exactly when the class is in
    non-blocking mode ([is_async = True]): no sync class has a method that
    must be awaited, no async class one that must not. *)
Theorem def_mode_matches_class C n m :
  In C geth_classes ->
  In (n, m) (cbody C) ->
  signature m <> None ->
  is_coroutine_function m = is_async C.
Proof.
  intros HC Hin Hdef.
  pose proof coroutine_consistent_all as Hall.
  rewrite forallb_forall in Hall. specialize (Hall C HC).
  unfold coroutine_consistent in Hall. rewrite forallb_forall in Hall.
  specialize (Hall (n, m) Hin). cbn [fst snd] in Hall.
  destruct (signature m); [|done].
  by apply Bool.eqb_prop in Hall.
Qed.

Lemma def_mode_matches_class_witness :
  is_coroutine_function (Def true [] [] AsyncGethTxPool.inspect)
  = is_async AsyncGethTxPool.cls.
Proof.
  apply (def_mode_matches_class AsyncGethTxPool.cls "inspect").
  - simpl. do 5 right. left. reflexivity.
  - simpl. right. left. reflexivity.
  - simpl. discriminate.
Defined.

(** ** Pairing of the two spellings *)

Lemma pairing_one_to_one_all :
  forallb pairing_one_to_one namespace_classes = true.
Proof. by vm_compute. Qed.

(** X5: within a namespace class the pairing of deprecated aliases with
    canonical operations is one to one: an alias has a single canonical
    operation and a canonical operation a single alias. *)
Theorem alias_pairing_one_to_one C x y z :
  In C namespace_classes ->
  In x (op_names C) -> In y (op_names C) -> In z (op_names C) ->
  (alias_pair x y = true -> alias_pair x z = true -> y = z) /\
  (alias_pair y x = true -> alias_pair z x = true -> y = z).
Proof.
  intros HC Hx Hy Hz.
  pose proof pairing_one_to_one_all as Hall.
  rewrite forallb_forall in Hall. specialize (Hall C HC).
  unfold pairing_one_to_one in Hall. rewrite forallb_forall in Hall.
  specialize (Hall x Hx). rewrite forallb_forall in Hall.
  specialize (Hall y Hy). rewrite forallb_forall in Hall.
  specialize (Hall z Hz). apply andb_true_iff in Hall as [H1 H2].
  split; intros Ha Hb.
  - rewrite Ha, Hb in H1. by apply String.eqb_eq in H1.
  - rewrite Ha, Hb in H2. by apply String.eqb_eq in H2.
Qed.

Lemma alias_pairing_one_to_one_witness :
  (alias_pair "startRPC" "start_rpc" = true ->
   alias_pair "startRPC" "start_rpc" = true -> "start_rpc" = "start_rpc") /\
  (alias_pair "start_rpc" "startRPC" = true ->
   alias_pair "start_rpc" "startRPC" = true -> "start_rpc" = "start_rpc").
Proof.
  apply (alias_pairing_one_to_one GethAdmin.cls "startRPC" "start_rpc"
           "start_rpc").
  - simpl. right. right. left. reflexivity.
  - vm_compute. do 10 right. left. reflexivity.
  - vm_compute. right. right. left. reflexivity.
  - vm_compute. right. right. left. reflexivity.
Defined.

Lemma aliases_have_canonical_all :
  forallb aliases_have_canonical namespace_classes = true.
Proof. by vm_compute. Qed.

(** X6: every camelCase method of a namespace class is the alias of a
    snake_case operation of the same class, to which both forward: no
    deprecated name is left without its replacement. *)
Theorem alias_has_canonical C a ma :
  In C namespace_classes ->
  getattr C a = Some ma -> is_public a = true ->
  has_upper a = true ->
  exists o mo rpc,
    getattr C o = Some mo /\ is_public o = true /\
    is_snake_case o = true /\ alias_pair a o = true /\
    forwards_to ma rpc /\ forwards_to mo rpc.
Proof.
  intros HC Hget Hpub Hup.
  pose proof aliases_have_canonical_all as Hall.
  rewrite forallb_forall in Hall. specialize (Hall C HC).
  unfold aliases_have_canonical in Hall. rewrite forallb_forall in Hall.
  specialize (Hall a (exposed_op_names C a ma (getattr_exposed C a ma Hget Hpub))).
  rewrite Hup in Hall. cbn [implb] in Hall.
  apply existsb_exists in Hall as (o & Ho & Hpair).
  destruct (op_names_exposed C o Ho) as [mo Hin].
  assert (is_public o = true) as Hpo.
  { apply list_elem_of_In, list_elem_of_filter in Hin as [Hp _]. exact Hp. }
  pose proof (exposed_getattr C o mo HC Hin) as Hgo.
  destruct (exposed_wired C a ma HC Hget Hpub) as (rpc & Hdoc & Hfw & _).
  destruct (exposed_wired C o mo HC Hgo Hpo) as (rpc' & Hdoc' & Hfw' & _).
  rewrite (documented_norm C a o (alias_pair_norm a o Hpair)) in Hdoc.
  assert (rpc = rpc') as <- by congruence.
  exists o, mo, rpc. repeat split; try done.
  unfold alias_pair, camel_of in Hpair. rewrite !andb_true_iff in Hpair.
  tauto.
Qed.

Lemma alias_has_canonical_witness :
  exists o mo rpc,
    getattr GethMiner.cls o = Some mo /\ is_public o = true /\
    is_snake_case o = true /\ alias_pair "setEtherbase" o = true /\
    forwards_to (Attr miner.setEtherbase) rpc /\ forwards_to mo rpc.
Proof.
  apply (alias_has_canonical GethMiner.cls "setEtherbase").
  - simpl. right. right. right. left. reflexivity.
  - reflexivity.
  - reflexivity.
  - reflexivity.
Defined.

Lemma alias_params_agree_all :
  forallb alias_params_agree namespace_classes = true.
Proof. by vm_compute. Qed.

(** X7: a deprecated alias declares the same parameter names, in the same
    order, as its canonical operation (also [signTypedData], which differs
    from [sign_typed_data] in the default only). *)
Theorem alias_declares_same_parameters C a o ma mo :
  In C namespace_classes ->
  getattr C a = Some ma -> getattr C o = Some mo ->
  is_public a = true -> is_public o = true ->
  alias_pair a o = true ->
  params_of ma = params_of mo.
Proof.
  intros HC Ha Ho Hpa Hpo Hpair.
  pose proof alias_params_agree_all as Hall.
  rewrite forallb_forall in Hall. specialize (Hall C HC).
  unfold alias_params_agree in Hall. rewrite forallb_forall in Hall.
  specialize (Hall (a, ma) (getattr_exposed C a ma Ha Hpa)).
  rewrite forallb_forall in Hall.
  specialize (Hall (o, mo) (getattr_exposed C o mo Ho Hpo)).
  cbn [fst snd] in Hall. rewrite Hpair in Hall.
  by apply bool_decide_eq_true in Hall.
Qed.

Lemma alias_declares_same_parameters_witness :
  params_of (Def false ["message"; "account"; "password"] [VNone]
               GethPersonal.signTypedData)
  = params_of (Def false ["message"; "account"; "password"] []
                 GethPersonal.sign_typed_data).
Proof.
  apply (alias_declares_same_parameters GethPersonal.cls "signTypedData"
           "sign_typed_data").
  - simpl. left. reflexivity.
  - reflexivity.
  - reflexivity.
  - reflexivity.
  - reflexivity.
  - vm_compute. reflexivity.
Defined.

(** ** Sync and async classes side by side *)

Lemma same_params_pairs : forallb same_params sync_async_pairs = true.
Proof. by vm_compute. Qed.

Lemma defaults_of_signature ms ma :
  signature ms = signature ma ->
  none_defaults ms -> none_defaults ma ->
  defaults_of ms = defaults_of ma.
Proof.
  destruct ms as [? ps ds ?|?], ma as [? ps' ds' ?|?]; simpl; try done.
  intros [= _ Hds] -> ->. by rewrite Hds.
Qed.

(** X8: an operation that GethPersonal and AsyncGethPersonal (or GethTxPool
    and AsyncGethTxPool) both define declares the same parameter names in
    the same order and the same default values in both classes. *)
Theorem sync_async_declare_same_signature S A n ms ma :
  In (S, A) sync_async_pairs ->
  getattr S n = Some ms -> getattr A n = Some ma -> is_public n = true ->
  params_of ms = params_of ma /\ defaults_of ms = defaults_of ma.
Proof.
  intros HSA Hs Ha Hpub.
  destruct (sync_async_pairs_spec S A HSA) as (HS & HA & _).
  split.
  - pose proof same_params_pairs as Hall.
    rewrite forallb_forall in Hall. specialize (Hall (S, A) HSA).
    unfold same_params in Hall. rewrite forallb_forall in Hall.
    specialize (Hall (n, ms) (getattr_exposed S n ms Hs Hpub)).
    rewrite forallb_forall in Hall.
    specialize (Hall (n, ma) (getattr_exposed A n ma Ha Hpub)).
    cbn [fst snd] in Hall. rewrite String.eqb_refl in Hall.
    by apply bool_decide_eq_true in Hall.
  - destruct (exposed_wired S n ms HS Hs Hpub) as (_ & _ & _ & Hns).
    destruct (exposed_wired A n ma HA Ha Hpub) as (_ & _ & _ & Hna).
    apply defaults_of_signature; [|done|done].
    by apply (sync_async_signature S A n).
Qed.

Lemma sync_async_declare_same_signature_witness :
  params_of (Def false ["account"; "passphrase"; "duration"] [VNone]
               GethPersonal.unlock_account)
  = params_of (Def true ["account"; "passphrase"; "duration"] [VNone]
                 AsyncGethPersonal.unlock_account) /\
  defaults_of (Def false ["account"; "passphrase"; "duration"] [VNone]
                 GethPersonal.unlock_account)
  = defaults_of (Def true ["account"; "passphrase"; "duration"] [VNone]
                   AsyncGethPersonal.unlock_account).
Proof.
  apply (sync_async_declare_same_signature GethPersonal.cls
           AsyncGethPersonal.cls "unlock_account").
  - simpl. left. reflexivity.
  - reflexivity.
  - reflexivity.
  - reflexivity.
Defined.

(** X9: the operations of an async class are exactly the snake_case
    operations of its sync class: AsyncGethPersonal has every operation of
    GethPersonal but the deprecated camelCase ones, AsyncGethTxPool every
    operation of GethTxPool. *)
Theorem async_operations_are_sync_snake_case S A n :
  In (S, A) sync_async_pairs ->
  In n (op_names A) <-> In n (op_names S) /\ is_snake_case n = true.
Proof.
  simpl. intros [[= <- <-]|[[= <- <-]|[]]]; split.
  - intros Hn. vm_compute in Hn.
    repeat (destruct Hn as [<-|Hn]; [split; vm_compute; tauto|]).
    contradiction.
  - intros [Hn Hsnake]. vm_compute in Hn.
    repeat (destruct Hn as [<-|Hn];
            [first [by vm_compute in Hsnake | vm_compute; tauto]|]).
    contradiction.
  - intros Hn. vm_compute in Hn.
    repeat (destruct Hn as [<-|Hn]; [split; vm_compute; tauto|]).
    contradiction.
  - intros [Hn Hsnake]. vm_compute in Hn.
    repeat (destruct Hn as [<-|Hn];
            [first [by vm_compute in Hsnake | vm_compute; tauto]|]).
    contradiction.
Qed.

Lemma async_operations_are_sync_snake_case_witness :
  In "list_wallets" (op_names AsyncGethPersonal.cls) <->
  In "list_wallets" (op_names GethPersonal.cls) /\
  is_snake_case "list_wallets" = true.
Proof.
  apply (async_operations_are_sync_snake_case GethPersonal.cls
           AsyncGethPersonal.cls "list_wallets").
  simpl. left. reflexivity.
Defined.

(** ** Inheritance *)

(** X10: a wrapper class sees every binding of the class it extends as
    that class made it: no method of GethPersonal, AsyncGethPersonal,
    GethTxPool or AsyncGethTxPool replaces a binding of BaseGethPersonal or
    BaseTxPool, and none of these bindings is public. *)
Theorem base_bindings_inherited S B n m :
  In S wrapper_classes ->
  cbase S = Some B ->
  getattr B n = Some m ->
  getattr S n = Some m /\ is_public n = false.
Proof.
  intros HS HB Hget. apply getattr_In in Hget.
  simpl in HS.
  destruct HS as [<-|[<-|[<-|[<-|[]]]]];
    injection HB as <-;
    vm_compute in Hget;
    repeat (destruct Hget as [Hget|Hget];
            [injection Hget as <- <-; split; reflexivity|]);
    contradiction.
Qed.

Lemma base_bindings_inherited_witness :
  getattr AsyncGethTxPool.cls "_status" = Some (Attr BaseTxPool._status) /\
  is_public "_status" = false.
Proof.
  apply (base_bindings_inherited AsyncGethTxPool.cls BaseTxPool.cls).
  - simpl. right. right. right. left. reflexivity.
  - reflexivity.
  - reflexivity.
Defined.

(** ** The aggregate *)

(** X11: each attribute the Geth aggregate declares is annotated with a
    class that geth.py defines, that is a namespace class in blocking
    mode, and that binds the namespace the attribute is named after. *)
Theorem Geth_attributes_resolve attr cn :
  In (attr, cn) (annotations Geth.cls) ->
  exists C,
    find_class cn geth_classes = Some C /\
    In C namespace_classes /\
    is_async C = false /\
    namespace_of C = Some attr.
Proof.
  simpl. intros [[= <- <-]|[[= <- <-]|[]]].
  - exists GethPersonal.cls. repeat split; try done. simpl. tauto.
  - exists GethAdmin.cls. repeat split; try done. simpl. tauto.
Qed.

Lemma Geth_attributes_resolve_witness :
  exists C,
    find_class "GethAdmin" geth_classes = Some C /\
    In C namespace_classes /\
    is_async C = false /\
    namespace_of C = Some "admin".
Proof.
  apply (Geth_attributes_resolve "admin" "GethAdmin").
  simpl. right. left. reflexivity.
Defined.

(** ** Names *)


